(** * Student record service (FastAPI handlers over a MongoDB collection)

    A shallow embedding of [app.py]: the two request models
    ([StudentModel], [UpdateStudentModel]), the [students] collection the
    handlers talk to, and the five handlers [create_student],
    [list_students], [show_student], [update_student], [delete_student].

    What is modelled, and where it stops:
    - a handler is the coroutine of the source: it runs against the
      collection, issues driver calls, and either returns a value or raises;
      every driver call it awaits is recorded, so that "no write was issued"
      is a statement about the handler and not only about the final store;
    - a request body is taken after JSON decoding and after the coercion of
      scalars to the declared Python type ([str], [float]); what the
      declarations of the models add on top (required, optional, [le=4.0],
      [EmailStr], [PyObjectId], [default_factory]) is modelled;
    - what FastAPI does with the value a handler has returned (conversion
      through [response_model], encoding of a returned [dict]) happens after
      the handler and is not part of the handlers embedded here.  The
      [JSONResponse] that [create_student] builds itself is part of it. *)

From Stdlib Require Import ZArith NArith String Ascii SpecFloat.
From Stdlib.Strings Require Import Byte.
From stdpp Require Import gmap strings list fin_maps.

(** ** Python floats

    A [float] is an IEEE 754 binary64 value; [spec_float] is the Standard
    Library's specification of them, and [SFleb] its [<=] (false as soon as
    one side is NaN). *)

Abbreviation float := spec_float.

(** The literal [4.0] of [Field(..., le=4.0)]: 2^52 * 2^-50. *)
Definition four : float := S754_finite false 4503599627370496 (-50).

(** The literal [0.0]. *)
Definition zero : float := S754_zero false.

Definition is_finite (f : float) : bool :=
  match f with
  | S754_zero _ | S754_finite _ _ _ => true
  | S754_infinity _ | S754_nan => false
  end.

#[global] Instance float_eq_dec : EqDecision float.
Proof. solve_decision. Defined.

(** ** bson.ObjectId

    An ObjectId wraps the bytes of the identifier ([ObjectId.binary]); the
    ones the driver generates have twelve. *)

#[global] Instance byte_eq_dec' : EqDecision byte := byte_eq_dec.

Record ObjectId := { binary : list byte }.

#[global] Instance ObjectId_eq_dec : EqDecision ObjectId.
Proof. solve_decision. Defined.

(** [Py_ISSPACE]: space, and \t \n \v \f \r. *)
Definition is_space (c : ascii) : bool :=
  let n := N_of_ascii c in
  ((n =? 32) || ((9 <=? n) && (n <=? 13)))%N.

(** Value of a hexadecimal digit, either case. *)
Definition hex_value (c : ascii) : option N :=
  let n := N_of_ascii c in
  if ((48 <=? n) && (n <=? 57))%N then Some (n - 48)%N
  else if ((97 <=? n) && (n <=? 102))%N then Some (n - 87)%N
  else if ((65 <=? n) && (n <=? 70))%N then Some (n - 55)%N
  else None.

(** [bytes.fromhex]: pairs of hexadecimal digits, white space between the
    pairs skipped; [None] stands for its [ValueError]. *)
Fixpoint fromhex (s : list ascii) : option (list byte) :=
  match s with
  | [] => Some []
  | c :: s' =>
      if is_space c then fromhex s'
      else
        match hex_value c, s' with
        | Some top, d :: s'' =>
            match hex_value d with
            | Some bot =>
                match of_N (16 * top + bot), fromhex s'' with
                | Some b, Some bs => Some (b :: bs)
                | _, _ => None
                end
            | None => None
            end
        | _, _ => None
        end
  end.

(** Lower-case hexadecimal digit of a value below 16. *)
Definition hex_digit (n : N) : ascii :=
  ascii_of_N (if (n <? 10)%N then 48 + n else 87 + n).

(** [binascii.hexlify]. *)
Fixpoint hexlify (bs : list byte) : string :=
  match bs with
  | [] => ""
  | b :: bs' =>
      String (hex_digit (to_N b / 16)) (String (hex_digit (to_N b mod 16)) (hexlify bs'))
  end.

(** [str(oid)]. *)
Definition str_of_ObjectId (o : ObjectId) : string := hexlify (binary o).

(** [ObjectId(oid)] for a [str] argument: exactly 24 characters that
    [bytes.fromhex] accepts; [None] stands for [InvalidId]. *)
Definition ObjectId_of_str (oid : string) : option ObjectId :=
  if decide (String.length oid = 24)
  then (fun bs => {| binary := bs |}) <$> fromhex (list_ascii_of_string oid)
  else None.

(** [ObjectId.is_valid(oid)]: a falsy argument is refused at once. *)
Definition ObjectId_is_valid (oid : string) : bool :=
  if decide (oid = "") then false else bool_decide (is_Some (ObjectId_of_str oid)).

(** ** Documents and the collection *)

(** Values a stored document holds. *)
Inductive value :=
| VStr (s : string)
| VFloat (f : float)
| VObjectId (o : ObjectId).

#[global] Instance value_eq_dec : EqDecision value.
Proof. solve_decision. Defined.

(** A document is a Python [dict] with string keys. *)
Abbreviation document := (gmap string value).

(** The [students] collection, in the store's natural order. *)
Abbreviation collection := (list document).

(** A driver call awaited by a handler. *)
Inductive call :=
| InsertOne (doc : document)
| FindOne (key : value)
| FindToList (length : nat)
| UpdateOne (key : value) (set : document)
| DeleteOne (key : value).

(** ** Exceptions and responses *)

(** One violated constraint of a request model. *)
Inductive constraint :=
| Missing              (* "field required" *)
| NoneNotAllowed       (* "none is not an allowed value" *)
| InvalidObjectId      (* ValueError("Invalid objectid") *)
| InvalidEmail         (* "value is not a valid email address" *)
| NumberNotLe.         (* "ensure this value is less than or equal to 4.0" *)

(** pydantic's [ValidationError]: the violated constraints with the field
    each one is about. *)
Abbreviation ValidationError := (list (string * constraint)).

Inductive exn :=
| RequestValidationError (errors : ValidationError)   (* answered with 422 *)
| HTTPException (status_code : nat) (detail : string)
| DuplicateKeyError                                   (* insert_one *)
| WriteError                                          (* update_one *)
| JSONEncodeError.                                    (* json.dumps *)

Inductive outcome (A : Type) :=
| Return (a : A)
| Raise (e : exn).
Arguments Return {A} a.
Arguments Raise {A} e.

(** Body of a response: nothing at all, or JSON text for a document (or for
    [None]). *)
Inductive body :=
| Empty
| Json (content : option document).

Record Response := { status_code : nat; content : body }.

Definition HTTP_201_CREATED : nat := 201.
Definition HTTP_204_NO_CONTENT : nat := 204.

(** ** The handler monad

    A computation runs against the collection and yields its outcome, the
    collection afterwards and the driver calls it awaited, in order. *)

Definition M (A : Type) : Type := collection → outcome A * collection * list call.

Definition ret {A} (a : A) : M A := fun db => (Return a, db, []).

Definition raise {A} (e : exn) : M A := fun db => (Raise e, db, []).

Definition bind {A B} (c : M A) (k : A → M B) : M B := fun db =>
  let '(o, db', calls) := c db in
  match o with
  | Return a => let '(r, db'', calls') := k a db' in (r, db'', calls ++ calls')
  | Raise e => (Raise e, db', calls)
  end.

(** [await x := c in k] reads as [x = await c] followed by [k]. *)
Notation "'await' x ':=' c 'in' k" := (bind c (fun x => k))
  (at level 10, x name, c at level 100, k at level 200).

(** ** Request models *)

(** A key of the JSON body: not sent, sent as [null], or sent with a value. *)
Inductive field (A : Type) :=
| Absent
| Null
| Given (a : A).
Arguments Absent {A}.
Arguments Null {A}.
Arguments Given {A} a.

(** The JSON body of a request, at the keys the models read. *)
Record payload := {
  body_id : field string;       (* "_id", the alias of [StudentModel.id] *)
  body_name : field string;
  body_email : field string;
  body_course : field string;
  body_gpa : field float
}.

Module StudentModel.
Record t := {
  id : ObjectId;
  name : string;
  email : string;
  course : string;
  gpa : float
}.
End StudentModel.

Module UpdateStudentModel.
Record t := {
  name : option string;
  email : option string;
  course : option string;
  gpa : option float
}.
End UpdateStudentModel.

(** *** Vocabulary of the statements about bodies *)


(** A body with its [null]s left out. *)
Definition drop_null {A} (v : field A) : field A :=
  match v with
  | Null => Absent
  | _ => v
  end.

Definition without_nulls (b : payload) : payload :=
  {| body_id := drop_null (body_id b);
     body_name := drop_null (body_name b);
     body_email := drop_null (body_email b);
     body_course := drop_null (body_course b);
     body_gpa := drop_null (body_gpa b) |}.

(** ** The driver *)

(** Results of the driver's write calls. *)
Record InsertOneResult := { inserted_id : value }.
Record UpdateResult := { matched_count : nat; modified_count : nat }.
Record DeleteResult := { deleted_count : nat }.

#[global] Instance ge_dec : RelDecision ge := fun x y => decide (y ≤ x).

(** The filter [{"_id": key}]. *)
Definition id_is (key : value) (doc : document) : Prop := doc !! "_id" = Some key.

#[global] Instance id_is_dec key doc : Decision (id_is key doc).
Proof. unfold id_is. apply _. Defined.

(** The keys under which the documents are stored, in order. *)
Definition ids (db : collection) : list (option value) := (fun doc => doc !! "_id") <$> db.

(** What the store guarantees of its keys: every document has one, and no
    two documents share one. *)
Definition well_keyed (db : collection) : Prop :=
  Forall is_Some (ids db) ∧ NoDup (ids db).


(** [f"Student {id} not found"]. *)
Definition not_found_detail (id : string) : string :=
  "Student " +:+ id +:+ " not found".

(** [json.dumps(content, allow_nan=False)] succeeds: every float is finite
    and no value is an ObjectId. *)
Definition json_compliant (v : value) : bool :=
  match v with
  | VStr _ => true
  | VFloat f => is_finite f
  | VObjectId _ => false
  end.

(** [None] is rendered as [null]; a [dict] needs every value compliant. *)
Definition json_dumps_ok (content : option document) : bool :=
  match content with
  | None => true
  | Some doc => bool_decide (map_Forall (fun _ v => json_compliant v = true) doc)
  end.

(** ** Sample data, after the example of the models' [schema_extra] *)

(** A stand-in for the email validator where an example needs one: a string
    with an at sign is kept as it is, any other is refused. *)
Definition keep_address (v : string) : option string :=
  if existsb (fun c => bool_decide (c = "@"%char)) (list_ascii_of_string v)
  then Some v else None.

(** The binary64 values of the literals [3.0], [5.0] and [4.1] (the last
    one is 0x1.0666666666666p+2), and [float("-inf")]. *)
Definition three : float := S754_finite false 6755399441055744 (-51).
Definition four_point_one : float := S754_finite false 4616189618054758 (-50).

(** Two identifiers of twelve bytes. *)
Definition oid_a : ObjectId :=
  {| binary := [x64; x5f; x1a; x2b; x3c; x4d; x5e; x6f; x70; x81; x92; xa3] |}.
Definition oid_b : ObjectId :=
  {| binary := [x01; x23; x45; x67; x89; xab; xcd; xef; x01; x23; x45; x67] |}.

Definition jane_body (id : field string) (gpa : float) : payload :=
  {| body_id := id;
     body_name := Given "Jane Doe";
     body_email := Given "jdoe@example.com";
     body_course := Given "Experiments, Science, and Fashion in Nanophotonics";
     body_gpa := Given gpa |}.

Definition jane (id : ObjectId) (gpa : float) : StudentModel.t :=
  {| StudentModel.id := id;
     StudentModel.name := "Jane Doe";
     StudentModel.email := "jdoe@example.com";
     StudentModel.course := "Experiments, Science, and Fashion in Nanophotonics";
     StudentModel.gpa := gpa |}.

(** The body [{"gpa": gpa}]. *)
Definition gpa_only (gpa : float) : payload :=
  {| body_id := Absent; body_name := Absent; body_email := Absent;
     body_course := Absent; body_gpa := Given gpa |}.

Section Service.

(** pydantic's validator of [EmailStr]: the address it keeps for a string
    it accepts, [None] for one it refuses. *)
Variable EmailStr_validate : string → option string.

(** The identifier that [ObjectId()] produces during the request. *)
Variable new_oid : ObjectId.

(** *** The collection's operations *)

(** [insert_one(doc)]: a document without [_id] is given a generated one;
    the key must not be taken. *)
Definition insert_one (doc : document) : M InsertOneResult := fun db =>
  let key := default (VObjectId new_oid) (doc !! "_id") in
  let doc := <["_id" := key]> doc in
  match list_find (id_is key) db with
  | Some _ => (Raise DuplicateKeyError, db, [InsertOne doc])
  | None => (Return {| inserted_id := key |}, db ++ [doc], [InsertOne doc])
  end.

(** [find_one({"_id": key})]. *)
Definition find_one (key : value) : M (option document) := fun db =>
  (Return (snd <$> list_find (id_is key) db), db, [FindOne key]).

(** [find().to_list(length)]. *)
Definition to_list (length : nat) : M (list document) := fun db =>
  (Return (take length db), db, [FindToList length]).

(** [update_one({"_id": key}, {"$set": set})]: the first matching document
    takes the assignments; the store refuses to alter [_id]. *)
Definition update_one (key : value) (set : document) : M UpdateResult := fun db =>
  match list_find (id_is key) db with
  | None => (Return {| matched_count := 0; modified_count := 0 |}, db, [UpdateOne key set])
  | Some (i, doc) =>
      if decide (is_Some (set !! "_id") ∧ set !! "_id" ≠ doc !! "_id")
      then (Raise WriteError, db, [UpdateOne key set])
      else
        let doc' := set ∪ doc in
        (Return {| matched_count := 1;
                   modified_count := if decide (doc' = doc) then 0 else 1 |},
         <[i := doc']> db, [UpdateOne key set])
  end.

(** [delete_one({"_id": key})]. *)
Definition delete_one (key : value) : M DeleteResult := fun db =>
  match list_find (id_is key) db with
  | None => (Return {| deleted_count := 0 |}, db, [DeleteOne key])
  | Some (i, _) => (Return {| deleted_count := 1 |}, delete i db, [DeleteOne key])
  end.

(** *** Validation of the request models *)

(** [PyObjectId.validate]. *)
Definition PyObjectId_validate (v : string) : constraint + ObjectId :=
  if negb (ObjectId_is_valid v) then inl InvalidObjectId
  else
    match ObjectId_of_str v with
    | Some oid => inr oid
    | None => inl InvalidObjectId
    end.

(** A field declared [Field(...)]: it must be sent, and not as [null]. *)
Definition required {A B} (validate : A → constraint + B) (v : field A) : constraint + B :=
  match v with
  | Absent => inl Missing
  | Null => inl NoneNotAllowed
  | Given a => validate a
  end.

(** A field declared with [default_factory]: the factory is called only
    when the key is not sent. *)
Definition with_default_factory {A B} (factory : B) (validate : A → constraint + B)
    (v : field A) : constraint + B :=
  match v with
  | Absent => inr factory
  | Null => inl NoneNotAllowed
  | Given a => validate a
  end.

(** A field declared [Optional[...]]: not sent or [null] is [None]. *)
Definition optional {A B} (validate : A → constraint + B) (v : field A) : constraint + option B :=
  match v with
  | Absent | Null => inr None
  | Given a =>
      match validate a with
      | inl c => inl c
      | inr b => inr (Some b)
      end
  end.

Definition str_validator (v : string) : constraint + string := inr v.

Definition email_validator (v : string) : constraint + string :=
  match EmailStr_validate v with
  | Some address => inr address
  | None => inl InvalidEmail
  end.

Definition float_validator (v : float) : constraint + float := inr v.

(** [le=4.0]: refused when [not v <= 4.0]. *)
Definition le_validator (le : float) (v : float) : constraint + float :=
  if negb (SFleb v le) then inl NumberNotLe else inr v.

(** The error a field contributes. *)
Definition error_of {B} (loc : string) (r : constraint + B) : ValidationError :=
  match r with
  | inl c => [(loc, c)]
  | inr _ => []
  end.

(** [StudentModel.parse_obj(body)]: [id] is read from the key [_id] and falls back
    on [default_factory=PyObjectId] only when the key is not sent; the
    errors of all fields are collected. *)
Definition StudentModel_parse_obj (b : payload) : ValidationError + StudentModel.t :=
  let id := with_default_factory new_oid PyObjectId_validate (body_id b) in
  let name := required str_validator (body_name b) in
  let email := required email_validator (body_email b) in
  let course := required str_validator (body_course b) in
  let gpa := required (le_validator four) (body_gpa b) in
  match id, name, email, course, gpa with
  | inr id, inr name, inr email, inr course, inr gpa =>
      inr {| StudentModel.id := id; StudentModel.name := name;
             StudentModel.email := email; StudentModel.course := course;
             StudentModel.gpa := gpa |}
  | _, _, _, _, _ =>
      inl (error_of "_id" id ++ error_of "name" name ++ error_of "email" email
           ++ error_of "course" course ++ error_of "gpa" gpa)
  end.

(** [UpdateStudentModel.parse_obj(body)]: every field optional, no bound on [gpa];
    the key [_id] is not a field of the model and is ignored. *)
Definition UpdateStudentModel_parse_obj (b : payload) : ValidationError + UpdateStudentModel.t :=
  let name := optional str_validator (body_name b) in
  let email := optional email_validator (body_email b) in
  let course := optional str_validator (body_course b) in
  let gpa := optional float_validator (body_gpa b) in
  match name, email, course, gpa with
  | inr name, inr email, inr course, inr gpa =>
      inr {| UpdateStudentModel.name := name; UpdateStudentModel.email := email;
             UpdateStudentModel.course := course; UpdateStudentModel.gpa := gpa |}
  | _, _, _, _ =>
      inl (error_of "name" name ++ error_of "email" email
           ++ error_of "course" course ++ error_of "gpa" gpa)
  end.

(** [jsonable_encoder(student)]: the model as a [dict], by alias, the
    ObjectId through [json_encoders = {ObjectId: str}]. *)
Definition jsonable_encoder (student : StudentModel.t) : document :=
  {[ "_id" := VStr (str_of_ObjectId (StudentModel.id student));
     "name" := VStr (StudentModel.name student);
     "email" := VStr (StudentModel.email student);
     "course" := VStr (StudentModel.course student);
     "gpa" := VFloat (StudentModel.gpa student) ]}.

(** [student.dict()]: all four fields, [None] for those not set. *)
Definition UpdateStudentModel_dict (student : UpdateStudentModel.t) : gmap string (option value) :=
  {[ "name" := VStr <$> UpdateStudentModel.name student;
     "email" := VStr <$> UpdateStudentModel.email student;
     "course" := VStr <$> UpdateStudentModel.course student;
     "gpa" := VFloat <$> UpdateStudentModel.gpa student ]}.

(** [{k: v for k, v in d.items() if v is not None}]. *)
Definition not_None (d : gmap string (option value)) : document :=
  omap (fun v => v) d.

(** [JSONResponse(status_code=..., content=...)]: the body is rendered
    when the response is built. *)
Definition JSONResponse (status_code : nat) (content : option document) : M Response :=
  if json_dumps_ok content
  then ret {| status_code := status_code; content := Json content |}
  else raise JSONEncodeError.

(** *** The handlers *)

Definition create_student (student : StudentModel.t) : M Response :=
  let student := jsonable_encoder student in
  await new_student := insert_one student in
  await created_student := find_one (inserted_id new_student) in
  JSONResponse HTTP_201_CREATED created_student.

Definition list_students : M (list document) :=
  await students := to_list 1000 in
  ret students.

Definition show_student (id : string) : M document :=
  await student := find_one (VStr id) in
  match student with
  | Some student => ret student
  | None => raise (HTTPException 404 (not_found_detail id))
  end.

Definition update_student (id : string) (student : UpdateStudentModel.t) : M document :=
  let student := not_None (UpdateStudentModel_dict student) in
  (* lines 143-146, reached by falling through *)
  let existing :=
    await existing_student := find_one (VStr id) in
    match existing_student with
    | Some existing_student => ret existing_student
    | None => raise (HTTPException 404 (not_found_detail id))
    end in
  if decide (size student >= 1) then
    await update_result := update_one (VStr id) student in
    if decide (modified_count update_result = 1) then
      await updated_student := find_one (VStr id) in
      match updated_student with
      | Some updated_student => ret updated_student
      | None => existing
      end
    else existing
  else existing.

Definition delete_student (id : string) : M Response :=
  await delete_result := delete_one (VStr id) in
  if decide (deleted_count delete_result = 1)
  then ret {| status_code := HTTP_204_NO_CONTENT; content := Empty |}
  else raise (HTTPException 404 (not_found_detail id)).

(** *** The routes: the body is validated, then the handler runs *)

(** [POST /]. *)
Definition POST (b : payload) : M Response :=
  match StudentModel_parse_obj b with
  | inl errors => raise (RequestValidationError errors)
  | inr student => create_student student
  end.

(** [PUT /{id}]. *)
Definition PUT (id : string) (b : payload) : M document :=
  match UpdateStudentModel_parse_obj b with
  | inl errors => raise (RequestValidationError errors)
  | inr student => update_student id student
  end.

(** ** Properties *)

(** *** Comparison of floats *)



(** *** The collection's operations *)

Lemma list_find_insert {A} (P : A → Prop) `{!∀ x, Decision (P x)} (l : list A) i x y :
  list_find P l = Some (i, x) → P y → list_find P (<[i := y]> l) = Some (i, y).
Proof.
  rewrite !list_find_Some. intros (Hi & _ & Hbefore) Hy.
  split_and!; [| done |].
  - apply list_lookup_insert_eq. by eapply lookup_lt_Some.
  - intros j z Hj Hlt. rewrite list_lookup_insert_ne in Hj by lia. eauto.
Qed.

Lemma ids_insert (db : collection) i doc doc' :
  db !! i = Some doc → doc' !! "_id" = doc !! "_id" → ids (<[i := doc']> db) = ids db.
Proof.
  intros Hi Hid. unfold ids. rewrite list_fmap_insert, Hid.
  apply list_insert_id. by rewrite list_lookup_fmap, Hi.
Qed.

(** *** The assignments of an update *)

Lemma not_None_lookup (d : gmap string (option value)) k v :
  not_None d !! k = Some v ↔ d !! k = Some (Some v).
Proof.
  unfold not_None. rewrite lookup_omap.
  destruct (d !! k) as [[w|]|]; simpl; naive_solver.
Qed.

Lemma assignments_lookup (student : UpdateStudentModel.t) k :
  not_None (UpdateStudentModel_dict student) !! k =
    if decide (k = "name") then VStr <$> UpdateStudentModel.name student
    else if decide (k = "email") then VStr <$> UpdateStudentModel.email student
    else if decide (k = "course") then VStr <$> UpdateStudentModel.course student
    else if decide (k = "gpa") then VFloat <$> UpdateStudentModel.gpa student
    else None.
Proof.
  unfold not_None, UpdateStudentModel_dict. rewrite lookup_omap.
  repeat case_decide; simplify_map_eq; by try destruct (_ student).
Qed.

Lemma assignments_no_id (student : UpdateStudentModel.t) :
  not_None (UpdateStudentModel_dict student) !! "_id" = None.
Proof. by rewrite assignments_lookup. Qed.

(** What [update_student] does, by cases on the store and the patch. *)
Lemma update_student_eval (id : string) (student : UpdateStudentModel.t) (db : collection) :
  let set := not_None (UpdateStudentModel_dict student) in
  update_student id student db =
    match list_find (id_is (VStr id)) db with
    | None =>
        (Raise (HTTPException 404 (not_found_detail id)), db,
         if decide (size set >= 1)
         then [UpdateOne (VStr id) set; FindOne (VStr id)]
         else [FindOne (VStr id)])
    | Some (i, doc) =>
        if decide (size set >= 1)
        then (Return (set ∪ doc), <[i := set ∪ doc]> db,
              [UpdateOne (VStr id) set; FindOne (VStr id)])
        else (Return doc, db, [FindOne (VStr id)])
    end.
Proof.
  intros set. unfold update_student. fold set.
  destruct (list_find (id_is (VStr id)) db) as [[i doc]|] eqn:Hfind.
  - case_decide as Hsize.
    + unfold bind at 1. unfold update_one. rewrite Hfind.
      rewrite decide_False by (unfold set; rewrite assignments_no_id; by intros [[] _]).
      assert (Hfind' : list_find (id_is (VStr id)) (<[i := set ∪ doc]> db) = Some (i, set ∪ doc)).
      { apply (list_find_insert _ _ _ doc); [done|].
        apply list_find_Some in Hfind as (_ & Hid & _).
        unfold id_is in *. rewrite lookup_union_r; [done|]. apply assignments_no_id. }
      cbn [modified_count].
      destruct (decide (set ∪ doc = doc)) as [Heq|Hne].
      * rewrite decide_False by done. unfold bind, find_one, ret.
        rewrite Hfind'. simpl. done.
      * rewrite decide_True by done. unfold bind, find_one, ret.
        rewrite Hfind'. simpl. done.
    + unfold bind, find_one, ret. rewrite Hfind. done.
  - case_decide as Hsize.
    + unfold bind at 1. unfold update_one. rewrite Hfind.
      cbn [modified_count]. rewrite decide_False by done.
      unfold bind, find_one, raise. rewrite Hfind. done.
    + unfold bind, find_one, raise. rewrite Hfind. done.
Qed.

(** *** Identifiers and encoded documents *)

Lemma hexlify_length (bs : list byte) : String.length (hexlify bs) = 2 * length bs.
Proof. induction bs as [|b bs IH]; simpl; [done|]. rewrite IH. lia. Qed.

Lemma jsonable_encoder_lookup (student : StudentModel.t) k :
  jsonable_encoder student !! k =
    if decide (k = "_id") then Some (VStr (str_of_ObjectId (StudentModel.id student)))
    else if decide (k = "name") then Some (VStr (StudentModel.name student))
    else if decide (k = "email") then Some (VStr (StudentModel.email student))
    else if decide (k = "course") then Some (VStr (StudentModel.course student))
    else if decide (k = "gpa") then Some (VFloat (StudentModel.gpa student))
    else None.
Proof. unfold jsonable_encoder. repeat case_decide; by simplify_map_eq. Qed.

Lemma jsonable_encoder_compliant (student : StudentModel.t) :
  is_finite (StudentModel.gpa student) = true →
  json_dumps_ok (Some (jsonable_encoder student)) = true.
Proof.
  intros Hfin. unfold json_dumps_ok. apply bool_decide_eq_true.
  intros k v. rewrite jsonable_encoder_lookup.
  repeat case_decide; intros [= <-]; done.
Qed.

(** What [create_student] does when the key is free. *)
Lemma create_student_eval (student : StudentModel.t) (db : collection) :
  let id := VStr (str_of_ObjectId (StudentModel.id student)) in
  let created := jsonable_encoder student in
  Forall (fun doc => ¬ id_is id doc) db →
  create_student student db =
    if json_dumps_ok (Some created)
    then (Return {| status_code := 201; content := Json (Some created) |},
          db ++ [created], [InsertOne created; FindOne id])
    else (Raise JSONEncodeError, db ++ [created], [InsertOne created; FindOne id]).
Proof.
  intros id created Hfree.
  assert (Hnone : list_find (id_is id) db = None) by (by apply list_find_None).
  assert (Hid : created !! "_id" = Some id) by (unfold created; by rewrite jsonable_encoder_lookup).
  unfold create_student. fold created. unfold bind at 1. unfold insert_one.
  rewrite Hid. unfold default, from_option, Datatypes.id.
  rewrite (insert_id created "_id" id Hid), Hnone.
  cbn [inserted_id]. unfold bind, find_one.
  rewrite list_find_app_r by done.
  cbn [list_find]. rewrite decide_True by done. cbn.
  unfold JSONResponse, HTTP_201_CREATED.
  unfold json_dumps_ok. by destruct (bool_decide _).
Qed.

(** What [show_student] does. *)
Lemma show_student_eval (id : string) (db : collection) :
  show_student id db =
    (match list_find (id_is (VStr id)) db with
     | Some (_, doc) => Return doc
     | None => Raise (HTTPException 404 (not_found_detail id))
     end, db, [FindOne (VStr id)]).
Proof.
  unfold show_student, bind, find_one.
  by destruct (list_find (id_is (VStr id)) db) as [[i doc]|].
Qed.

(** *** Validation of a create request *)

Lemma StudentModel_parse_obj_inr (b : payload) (student : StudentModel.t) :
  StudentModel_parse_obj b = inr student ↔
    with_default_factory new_oid PyObjectId_validate (body_id b) = inr (StudentModel.id student) ∧
    body_name b = Given (StudentModel.name student) ∧
    (∃ v, body_email b = Given v ∧ EmailStr_validate v = Some (StudentModel.email student)) ∧
    body_course b = Given (StudentModel.course student) ∧
    body_gpa b = Given (StudentModel.gpa student) ∧
    SFleb (StudentModel.gpa student) four = true.
Proof.
  unfold StudentModel_parse_obj.
  destruct student as [i n e c g]. cbn [StudentModel.id StudentModel.name
    StudentModel.email StudentModel.course StudentModel.gpa].
  destruct (with_default_factory new_oid PyObjectId_validate (body_id b)) as [ci|i'];
    destruct (body_name b) as [| |n'];
    destruct (body_email b) as [| |e'];
    destruct (body_course b) as [| |c'];
    destruct (body_gpa b) as [| |g'];
    cbn [required str_validator]; unfold email_validator, le_validator;
    try destruct (EmailStr_validate e') as [a|] eqn:He;
    try destruct (SFleb g' four) eqn:Hg; cbn [negb];
    (split; [intros [=]; subst; eauto 10 | intros (? & ? & (? & ? & ?) & ? & ? & ?); simplify_eq; congruence]).
Qed.




(** *** Creation *)

Lemma PyObjectId_validate_inr (v : string) (oid : ObjectId) :
  PyObjectId_validate v = inr oid → ObjectId_of_str v = Some oid.
Proof.
  unfold PyObjectId_validate.
  destruct (negb (ObjectId_is_valid v)); [done|].
  destruct (ObjectId_of_str v); naive_solver.
Qed.


(** C8, on the code.  When the body of a create request carries an
    identifier, the model takes it: the document is stored and returned
    under the string of that identifier, and the generated one plays no
    part. *)
Theorem create_stores_client_id (b : payload) (v : string) (student : StudentModel.t)
    (db : collection) :
  body_id b = Given v →
  StudentModel_parse_obj b = inr student →
  is_finite (StudentModel.gpa student) = true →
  Forall (fun doc => ¬ id_is (VStr (str_of_ObjectId (StudentModel.id student))) doc) db →
  let created := jsonable_encoder student in
  ObjectId_of_str v = Some (StudentModel.id student) ∧
  created !! "_id" = Some (VStr (str_of_ObjectId (StudentModel.id student))) ∧
  POST b db =
    (Return {| status_code := 201; content := Json (Some created) |}, db ++ [created],
     [InsertOne created; FindOne (VStr (str_of_ObjectId (StudentModel.id student)))]).
Proof.
  intros Hid Hparse Hfin Hfree created.
  pose proof Hparse as Hfields. apply StudentModel_parse_obj_inr in Hfields.
  destruct Hfields as (Hoid & _). rewrite Hid in Hoid. cbn in Hoid.
  split_and!.
  - by apply PyObjectId_validate_inr.
  - unfold created. by rewrite jsonable_encoder_lookup.
  - unfold POST. rewrite Hparse, create_student_eval by done.
    by rewrite jsonable_encoder_compliant.
Qed.

(** *** Reading *)

(** C6.  getById looks the identifier up as the string it was given: the
    one driver call is [find_one] with that very string as the key, whatever
    its form, and the collection is left as it was.  It fails with NotFound,
    message "Student {id} not found", exactly when no stored document has
    that string as its key; otherwise it returns a stored document with that
    key.  Nothing is converted on the way: a document stored under an
    ObjectId is not found through the string of that ObjectId. *)
Theorem show_student_not_found_iff (id : string) (db : collection) :
  (∃ r, show_student id db = (r, db, [FindOne (VStr id)])) ∧
  ((∃ db' calls,
      show_student id db =
        (Raise (HTTPException 404 ("Student " +:+ id +:+ " not found")), db', calls))
   ↔ Forall (fun doc : document => doc !! "_id" ≠ Some (VStr id)) db) ∧
  (∀ doc db' calls,
     show_student id db = (Return doc, db', calls) →
     doc ∈ db ∧ doc !! "_id" = Some (VStr id)) ∧
  (∀ e db' calls,
     show_student id db = (Raise e, db', calls) →
     e = HTTPException 404 ("Student " +:+ id +:+ " not found")) ∧
  (∀ oid,
     Forall (fun doc : document => doc !! "_id" = Some (VObjectId oid)) db →
     show_student (str_of_ObjectId oid) db =
       (Raise (HTTPException 404 ("Student " +:+ str_of_ObjectId oid +:+ " not found")), db,
        [FindOne (VStr (str_of_ObjectId oid))])).
Proof.
  assert (Hnative : ∀ oid,
    Forall (fun doc : document => doc !! "_id" = Some (VObjectId oid)) db →
    show_student (str_of_ObjectId oid) db =
      (Raise (HTTPException 404 (not_found_detail (str_of_ObjectId oid))), db,
       [FindOne (VStr (str_of_ObjectId oid))])).
  { intros oid Hall. rewrite show_student_eval.
    replace (list_find (id_is (VStr (str_of_ObjectId oid))) db) with (@None (nat * document));
      [done|].
    symmetry. apply list_find_None. eapply Forall_impl; [exact Hall|].
    unfold id_is. intros doc Hdoc. by rewrite Hdoc. }
  rewrite show_student_eval. fold (not_found_detail id).
  destruct (list_find (id_is (VStr id)) db) as [[i doc]|] eqn:Hfind.
  - apply list_find_Some in Hfind as (Hi & Hdoc & _).
    assert (Hin : doc ∈ db) by (apply list_elem_of_lookup; eauto).
    split_and!.
    + eauto.
    + split; [by intros (? & ? & [=])|].
      intros Hall. rewrite Forall_forall in Hall. by destruct (Hall doc Hin).
    + by intros ? ? ? [= <- <- <-].
    + by intros ? ? ? [=].
    + done.
  - pose proof Hfind as Hall. apply list_find_None in Hall.
    split_and!.
    + eauto.
    + split; [done | eauto].
    + by intros ? ? ? [=].
    + by intros ? ? ? [= <- <- <-].
    + done.
Qed.


(** *** Deletion *)

(** C5.  delete makes the one call [delete_one] with the string as key; the
    store deletes one document or none.  It fails with NotFound, message
    "Student {id} not found", exactly when none was deleted, which is
    exactly when no stored document has that key; when one was deleted it
    answers 204 with an empty body. *)
Theorem delete_student_not_found_iff (id : string) (db : collection) :
  ∃ deleted db',
    delete_one (VStr id) db = (Return {| deleted_count := deleted |}, db', [DeleteOne (VStr id)]) ∧
    (deleted = 0 ∨ deleted = 1) ∧
    (delete_student id db =
       (Raise (HTTPException 404 ("Student " +:+ id +:+ " not found")), db',
        [DeleteOne (VStr id)])
     ↔ deleted = 0) ∧
    (deleted = 1 →
     delete_student id db =
       (Return {| status_code := 204; content := Empty |}, db', [DeleteOne (VStr id)])) ∧
    (deleted = 0 ↔ Forall (fun doc : document => doc !! "_id" ≠ Some (VStr id)) db) ∧
    (deleted = 0 → db' = db) ∧
    (deleted = 1 → length db' + 1 = length db).
Proof.
  unfold delete_student, bind, delete_one.
  destruct (list_find (id_is (VStr id)) db) as [[i doc]|] eqn:Hfind.
  - exists 1, (delete i db). cbn.
    apply list_find_Some in Hfind as (Hi & Hdoc & _).
    split_and!; try done; try by right.
    + split; [done|]. intros Hall. rewrite Forall_forall in Hall.
      destruct (Hall doc); [|done]. apply list_elem_of_lookup; eauto.
    + intros _. rewrite length_delete by eauto.
      apply lookup_lt_Some in Hi. lia.
  - exists 0, db. cbn. apply list_find_None in Hfind.
    split_and!; try done; by left.
Qed.

(** *** Update *)

Lemma size_ge_1 (m : document) : size m >= 1 ↔ m ≠ ∅.
Proof. rewrite <- map_size_non_empty_iff. lia. Qed.

Lemma UpdateStudentModel_parse_obj_inr (b : payload) (student : UpdateStudentModel.t) :
  UpdateStudentModel_parse_obj b = inr student →
  UpdateStudentModel.name student = match body_name b with Given v => Some v | _ => None end ∧
  UpdateStudentModel.email student =
    match body_email b with Given v => EmailStr_validate v | _ => None end ∧
  UpdateStudentModel.course student = match body_course b with Given v => Some v | _ => None end ∧
  UpdateStudentModel.gpa student = match body_gpa b with Given v => Some v | _ => None end.
Proof.
  unfold UpdateStudentModel_parse_obj.
  destruct (body_name b), (body_email b) as [| |e], (body_course b), (body_gpa b);
    cbn [optional str_validator float_validator]; unfold email_validator;
    try destruct (EmailStr_validate e);
    intros [= <-]; done.
Qed.


Lemma UpdateStudentModel_parse_obj_without_nulls (b : payload) :
  UpdateStudentModel_parse_obj (without_nulls b) = UpdateStudentModel_parse_obj b.
Proof.
  unfold UpdateStudentModel_parse_obj, without_nulls.
  cbn [body_name body_email body_course body_gpa].
  by destruct (body_name b), (body_email b), (body_course b), (body_gpa b).
Qed.


(** C4.  The assignments that update hands to the store are exactly the
    fields of the patch that hold a value: a key is assigned a value if and
    only if the patch has that value, not None, for it; only name, email,
    course and gpa can occur.  A field sent as null and a field not sent
    give the same patch, hence the same outcome.  The handler issues
    [update_one] with exactly these assignments as its [$set], and issues it
    only when there is at least one; the record it returns for an existing
    id holds the assigned value at each assigned key and the stored value at
    every other key. *)
Theorem update_assignments (id : string) (b : payload) (student : UpdateStudentModel.t)
    (db : collection) :
  let set := not_None (UpdateStudentModel_dict student) in
  (∀ k v, set !! k = Some v ↔ UpdateStudentModel_dict student !! k = Some (Some v)) ∧
  (set !! "name" = VStr <$> UpdateStudentModel.name student ∧
   set !! "email" = VStr <$> UpdateStudentModel.email student ∧
   set !! "course" = VStr <$> UpdateStudentModel.course student ∧
   set !! "gpa" = VFloat <$> UpdateStudentModel.gpa student) ∧
  (∀ k, is_Some (set !! k) → k ∈ ["name"; "email"; "course"; "gpa"]) ∧
  (UpdateStudentModel_parse_obj b = inr student →
   UpdateStudentModel.name student = match body_name b with Given v => Some v | _ => None end ∧
   UpdateStudentModel.email student =
     match body_email b with Given v => EmailStr_validate v | _ => None end ∧
   UpdateStudentModel.course student = match body_course b with Given v => Some v | _ => None end ∧
   UpdateStudentModel.gpa student = match body_gpa b with Given v => Some v | _ => None end) ∧
  UpdateStudentModel_parse_obj (without_nulls b) = UpdateStudentModel_parse_obj b ∧
  PUT id (without_nulls b) db = PUT id b db ∧
  (∃ r db',
     update_student id student db =
       (r, db',
        if decide (set = ∅) then [FindOne (VStr id)]
        else [UpdateOne (VStr id) set; FindOne (VStr id)])) ∧
  (∀ i doc,
     list_find (id_is (VStr id)) db = Some (i, doc) →
     ∃ doc' calls,
       update_student id student db = (Return doc', <[i := doc']> db, calls) ∧
       ∀ k, doc' !! k = match set !! k with Some v => Some v | None => doc !! k end).
Proof.
  intros set. split_and!.
  1: apply not_None_lookup.
  1-4: unfold set; by rewrite assignments_lookup.
  - intros k. unfold set. rewrite assignments_lookup.
    repeat case_decide; subst; rewrite ?elem_of_cons; intros Hsome; auto.
    by destruct Hsome.
  - apply UpdateStudentModel_parse_obj_inr.
  - apply UpdateStudentModel_parse_obj_without_nulls.
  - unfold PUT. by rewrite UpdateStudentModel_parse_obj_without_nulls.
  - rewrite update_student_eval. fold set.
    destruct (decide (set = ∅)) as [Hempty|Hne],
      (decide (size set >= 1)) as [Hsize|Hsize];
      rewrite size_ge_1 in Hsize; try done;
      try (by destruct Hsize);
      destruct (list_find _ db) as [[? ?]|]; eauto.
  - intros i doc Hfind. rewrite update_student_eval, Hfind. fold set.
    case_decide as Hsize.
    + do 2 eexists. split; [done|]. intros k. rewrite lookup_union.
      by destruct (set !! k), (doc !! k).
    + do 2 eexists. split.
      * rewrite list_insert_id; [done|]. by apply list_find_Some in Hfind as (Hi & _).
      * intros k. replace set with (∅ : document); [by rewrite lookup_empty|].
        symmetry. destruct (decide (set = ∅)) as [|Hne]; [done|].
        by apply size_ge_1 in Hne.
Qed.



(** No update changes the key of a stored document. *)
Lemma update_student_ids (id : string) (student : UpdateStudentModel.t) (db : collection)
    r db' calls :
  update_student id student db = (r, db', calls) → ids db' = ids db.
Proof.
  rewrite update_student_eval.
  destruct (list_find (id_is (VStr id)) db) as [[i doc]|] eqn:Hfind.
  - apply list_find_Some in Hfind as (Hi & _).
    case_decide; intros [= <- <- <-]; [|done].
    apply (ids_insert _ _ doc); [done|].
    rewrite lookup_union_r; [done|]. apply assignments_no_id.
  - by intros [= <- <- <-].
Qed.



(** ** Further properties of the service *)

(** *** Identifiers and their strings *)

Lemma byte_hex_digits (b : byte) :
  is_space (hex_digit (to_N b / 16)) = false ∧
  hex_value (hex_digit (to_N b / 16)) = Some (to_N b / 16)%N ∧
  hex_value (hex_digit (to_N b mod 16)) = Some (to_N b mod 16)%N ∧
  of_N (16 * (to_N b / 16) + to_N b mod 16) = Some b.
Proof. destruct b; vm_compute; done. Qed.

Lemma fromhex_hexlify (bs : list byte) :
  fromhex (list_ascii_of_string (hexlify bs)) = Some bs.
Proof.
  induction bs as [|b bs IH]; [done|].
  destruct (byte_hex_digits b) as (Hspace & Htop & Hbot & Hbyte).
  cbn [hexlify list_ascii_of_string fromhex].
  by rewrite Hspace, Htop, Hbot, Hbyte, IH.
Qed.

(** X1.  The validator of the identifier field reads back the string of
    every twelve-byte ObjectId as that ObjectId: the string has 24
    characters, is valid, and validates to the identifier it was made from.
    Whatever the validator accepts has 24 characters; the empty string is
    refused. *)
Theorem PyObjectId_validate_str (oid : ObjectId) :
  length (binary oid) = 12 →
  String.length (str_of_ObjectId oid) = 24 ∧
  ObjectId_is_valid (str_of_ObjectId oid) = true ∧
  PyObjectId_validate (str_of_ObjectId oid) = inr oid ∧
  (∀ v oid', PyObjectId_validate v = inr oid' → String.length v = 24) ∧
  PyObjectId_validate "" = inl InvalidObjectId.
Proof.
  intros Hlen.
  assert (Hlen' : String.length (str_of_ObjectId oid) = 24).
  { unfold str_of_ObjectId. rewrite hexlify_length. lia. }
  assert (Hread : ObjectId_of_str (str_of_ObjectId oid) = Some oid).
  { unfold ObjectId_of_str. rewrite decide_True by done.
    unfold str_of_ObjectId. rewrite fromhex_hexlify. by destruct oid. }
  assert (Hvalid : ObjectId_is_valid (str_of_ObjectId oid) = true).
  { unfold ObjectId_is_valid. rewrite decide_False.
    - rewrite Hread. by apply bool_decide_eq_true.
    - intros Heq. by rewrite Heq in Hlen'. }
  split_and!; try done.
  - unfold PyObjectId_validate. by rewrite Hvalid, Hread.
  - intros v oid'. unfold PyObjectId_validate, ObjectId_of_str.
    destruct (negb (ObjectId_is_valid v)); [done|].
    by case_decide.
Qed.

(** X2.  Different identifiers have different strings, of whatever length
    their bytes are; so two models are encoded under the same [_id] only
    when they hold the same identifier. *)
Theorem str_of_ObjectId_inj :
  (∀ a b : ObjectId, str_of_ObjectId a = str_of_ObjectId b → a = b) ∧
  (∀ s t : StudentModel.t,
     jsonable_encoder s !! "_id" = jsonable_encoder t !! "_id" →
     StudentModel.id s = StudentModel.id t).
Proof.
  assert (Hinj : ∀ a b : ObjectId, str_of_ObjectId a = str_of_ObjectId b → a = b).
  { unfold str_of_ObjectId. intros a b Heq.
    assert (Hbytes : Some (binary a) = Some (binary b))
      by (by rewrite <- !fromhex_hexlify, Heq).
    destruct a, b. cbn in Hbytes. congruence. }
  split; [done|].
  intros s t. rewrite !jsonable_encoder_lookup. cbn.
  intros [= Heq]. by apply Hinj.
Qed.

(** *** Finding a document after a change of the collection *)

Lemma list_find_insert_other {A} (P : A → Prop) `{!∀ x, Decision (P x)} (l : list A) i x y :
  l !! i = Some x → ¬ P x → ¬ P y → list_find P (<[i := y]> l) = list_find P l.
Proof.
  revert i. induction l as [|z l IH]; intros [|i] Hi Hx Hy; simplify_eq/=; try done.
  - by rewrite !decide_False by done.
  - case_decide; [done|]. by rewrite IH.
Qed.

Lemma list_find_delete_other {A} (P : A → Prop) `{!∀ x, Decision (P x)} (l : list A) i x :
  l !! i = Some x → ¬ P x → snd <$> list_find P (delete i l) = snd <$> list_find P l.
Proof.
  revert i. induction l as [|z l IH]; intros [|i] Hi Hx; simplify_eq/=; try done.
  - rewrite decide_False by done. by destruct (list_find P l) as [[? ?]|].
  - case_decide; [done|]. specialize (IH i Hi Hx).
    by destruct (list_find P (delete i l)) as [[? ?]|], (list_find P l) as [[? ?]|];
      simplify_eq/=.
Qed.

Lemma list_find_snoc_other {A} (P : A → Prop) `{!∀ x, Decision (P x)} (l : list A) y :
  ¬ P y → snd <$> list_find P (l ++ [y]) = snd <$> list_find P l.
Proof.
  intros Hy. destruct (list_find P l) as [[i x]|] eqn:Hfind.
  - by rewrite (list_find_app_l _ _ _ _ _ Hfind).
  - rewrite list_find_app_r by done. cbn [list_find]. by rewrite decide_False.
Qed.

(** With distinct keys, taking the document found for a key away leaves
    none with that key. *)
Lemma list_find_delete_same (key : value) (db : collection) i doc :
  NoDup (ids db) → list_find (id_is key) db = Some (i, doc) →
  list_find (id_is key) (delete i db) = None.
Proof.
  intros Hnodup Hfind. apply list_find_Some in Hfind as (Hi & Hdoc & _).
  apply list_find_None, Forall_forall. intros doc' Hin Hdoc'.
  apply list_elem_of_lookup in Hin as [j Hj].
  assert (Hkey : ∀ k d, db !! k = Some d → id_is key d → ids db !! k = Some (Some key)).
  { intros k d Hk Hd. unfold ids. rewrite list_lookup_fmap, Hk. cbn. by rewrite Hd. }
  destruct (decide (j < i)) as [Hlt|Hge].
  - rewrite list_lookup_delete_lt in Hj by done.
    pose proof (NoDup_lookup _ _ _ _ Hnodup (Hkey _ _ Hj Hdoc') (Hkey _ _ Hi Hdoc)). lia.
  - rewrite list_lookup_delete_ge in Hj by lia.
    pose proof (NoDup_lookup _ _ _ _ Hnodup (Hkey _ _ Hj Hdoc') (Hkey _ _ Hi Hdoc)). lia.
Qed.

(** What [create_student] does when the key is taken. *)
Lemma create_student_taken (student : StudentModel.t) (db : collection) i doc :
  list_find (id_is (VStr (str_of_ObjectId (StudentModel.id student)))) db = Some (i, doc) →
  create_student student db =
    (Raise DuplicateKeyError, db, [InsertOne (jsonable_encoder student)]).
Proof.
  intros Hfind. set (created := jsonable_encoder student).
  assert (Hid : created !! "_id" = Some (VStr (str_of_ObjectId (StudentModel.id student))))
    by (unfold created; by rewrite jsonable_encoder_lookup).
  unfold create_student. fold created. unfold bind at 1. unfold insert_one.
  rewrite Hid. unfold default, from_option, Datatypes.id.
  by rewrite (insert_id created "_id" _ Hid), Hfind.
Qed.

(** What [delete_student] does. *)
Lemma delete_student_eval (id : string) (db : collection) :
  delete_student id db =
    match list_find (id_is (VStr id)) db with
    | Some (i, _) =>
        (Return {| status_code := 204; content := Empty |}, delete i db, [DeleteOne (VStr id)])
    | None => (Raise (HTTPException 404 (not_found_detail id)), db, [DeleteOne (VStr id)])
    end.
Proof.
  unfold delete_student, bind, delete_one.
  by destruct (list_find (id_is (VStr id)) db) as [[i doc]|].
Qed.

Lemma jsonable_encoder_id (student : StudentModel.t) :
  jsonable_encoder student !! "_id" = Some (VStr (str_of_ObjectId (StudentModel.id student))).
Proof. by rewrite jsonable_encoder_lookup. Qed.

Lemma show_student_outcome (id : string) (db : collection) :
  show_student id db =
    (match snd <$> list_find (id_is (VStr id)) db with
     | Some doc => Return doc
     | None => Raise (HTTPException 404 (not_found_detail id))
     end, db, [FindOne (VStr id)]).
Proof.
  rewrite show_student_eval. by destruct (list_find (id_is (VStr id)) db) as [[i doc]|].
Qed.

Lemma well_keyed_snoc (db : collection) (doc : document) (key : value) :
  well_keyed db → doc !! "_id" = Some key → list_find (id_is key) db = None →
  well_keyed (db ++ [doc]).
Proof.
  intros [Hsome Hnodup] Hkey Hfree. unfold well_keyed, ids in *.
  rewrite fmap_app. cbn [fmap list_fmap]. rewrite Hkey. split.
  - apply Forall_app. split; [done|]. by apply Forall_singleton.
  - apply NoDup_app. split_and!; [done| |apply NoDup_singleton].
    intros o Ho Hin. apply list_elem_of_singleton in Hin as ->.
    apply list_elem_of_fmap in Ho as (doc' & Hdoc' & Hin).
    apply list_find_None in Hfree. rewrite Forall_forall in Hfree.
    by apply (Hfree doc' Hin).
Qed.

Lemma well_keyed_delete (db : collection) (i : nat) : well_keyed db → well_keyed (delete i db).
Proof.
  intros [Hsome Hnodup]. unfold well_keyed, ids in *. rewrite list_fmap_delete. split.
  - by apply Forall_delete.
  - eapply sublist_NoDup; [done | apply sublist_delete].
Qed.

(** *** The keys of the collection *)

(** X3.  Every handler keeps the keys of the collection in order: if each
    stored document has a key and no two share one, the same holds after
    create (whatever identifier the model carries, and whether it returns
    or raises), after update and after delete; getById and list leave the
    collection as it is.  The same holds of the two routes that validate a
    body first. *)
Theorem handlers_keep_well_keyed (db : collection) :
  well_keyed db →
  (∀ student r db' calls, create_student student db = (r, db', calls) → well_keyed db') ∧
  (∀ id student r db' calls, update_student id student db = (r, db', calls) → well_keyed db') ∧
  (∀ id r db' calls, delete_student id db = (r, db', calls) → well_keyed db') ∧
  (∀ id r db' calls, show_student id db = (r, db', calls) → db' = db) ∧
  (∀ r db' calls, list_students db = (r, db', calls) → db' = db) ∧
  (∀ b r db' calls, POST b db = (r, db', calls) → well_keyed db') ∧
  (∀ id b r db' calls, PUT id b db = (r, db', calls) → well_keyed db').
Proof.
  intros Hdb.
  assert (Hcreate : ∀ student r db' calls,
    create_student student db = (r, db', calls) → well_keyed db').
  { intros student r db' calls.
    destruct (list_find (id_is (VStr (str_of_ObjectId (StudentModel.id student)))) db)
      as [[i doc]|] eqn:Hfind.
    - rewrite (create_student_taken _ _ _ _ Hfind). by intros [= <- <- <-].
    - pose proof Hfind as Hfree. apply list_find_None in Hfree.
      rewrite create_student_eval by done.
      assert (well_keyed (db ++ [jsonable_encoder student])).
      { eapply well_keyed_snoc; [done| |done]. apply jsonable_encoder_id. }
      by destruct (json_dumps_ok _); intros [= <- <- <-]. }
  assert (Hupdate : ∀ id student r db' calls,
    update_student id student db = (r, db', calls) → well_keyed db').
  { intros id student r db' calls Heq. unfold well_keyed.
    by rewrite (update_student_ids _ _ _ _ _ _ Heq). }
  split_and!; try done.
  - intros id r db' calls. rewrite delete_student_eval.
    destruct (list_find (id_is (VStr id)) db) as [[i doc]|]; intros [= <- <- <-]; [|done].
    by apply well_keyed_delete.
  - intros id r db' calls. rewrite show_student_eval. by intros [= <- <- <-].
  - by intros r db' calls [= <- <- <-].
  - intros b r db' calls. unfold POST.
    destruct (StudentModel_parse_obj b); [by intros [= <- <- <-] | apply Hcreate].
  - intros id b r db' calls. unfold PUT.
    destruct (UpdateStudentModel_parse_obj b); [by intros [= <- <- <-] | apply Hupdate].
Qed.

(** X4.  In a collection whose keys are distinct, once delete has succeeded
    for an identifier nothing is left under it: getById, a second delete and
    any update with that identifier fail with NotFound. *)
Theorem delete_then_not_found (id : string) (db db' : collection) r calls :
  well_keyed db →
  delete_student id db = (Return r, db', calls) →
  show_student id db' =
    (Raise (HTTPException 404 ("Student " +:+ id +:+ " not found")), db', [FindOne (VStr id)]) ∧
  delete_student id db' =
    (Raise (HTTPException 404 ("Student " +:+ id +:+ " not found")), db', [DeleteOne (VStr id)]) ∧
  (∀ student, ∃ calls',
     update_student id student db' =
       (Raise (HTTPException 404 ("Student " +:+ id +:+ " not found")), db', calls')).
Proof.
  intros [_ Hnodup]. rewrite delete_student_eval. fold (not_found_detail id).
  destruct (list_find (id_is (VStr id)) db) as [[i doc]|] eqn:Hfind; [|done].
  intros [= <- <- <-].
  pose proof (list_find_delete_same _ _ _ _ Hnodup Hfind) as Hgone.
  split_and!.
  - by rewrite show_student_eval, Hgone.
  - by rewrite delete_student_eval, Hgone.
  - intros student. rewrite update_student_eval, Hgone. eauto.
Qed.

(** X5.  What update, delete and create do for one identifier does not
    change what getById answers for another: the outcome of getById for
    [id'] is the same after an update or a delete of a different identifier,
    and after the creation of a Student whose identifier has a different
    string. *)
Theorem other_ids_untouched (id' : string) (db : collection) :
  (∀ id student r db' calls,
     id ≠ id' → update_student id student db = (r, db', calls) →
     (show_student id' db').1.1 = (show_student id' db).1.1) ∧
  (∀ id r db' calls,
     id ≠ id' → delete_student id db = (r, db', calls) →
     (show_student id' db').1.1 = (show_student id' db).1.1) ∧
  (∀ student r db' calls,
     str_of_ObjectId (StudentModel.id student) ≠ id' →
     create_student student db = (r, db', calls) →
     (show_student id' db').1.1 = (show_student id' db).1.1).
Proof.
  split_and!.
  - intros id student r db' calls Hne. rewrite update_student_eval.
    destruct (list_find (id_is (VStr id)) db) as [[i doc]|] eqn:Hfind.
    + apply list_find_Some in Hfind as (Hi & Hdoc & _). unfold id_is in Hdoc.
      case_decide; intros [= <- <- <-]; [|done].
      rewrite !show_student_eval. cbn [fst].
      rewrite (list_find_insert_other _ _ _ doc); [done..| |].
      * unfold id_is. rewrite Hdoc. congruence.
      * unfold id_is. rewrite lookup_union_r by apply assignments_no_id.
        rewrite Hdoc. congruence.
    + by intros [= <- <- <-].
  - intros id r db' calls Hne. rewrite delete_student_eval.
    destruct (list_find (id_is (VStr id)) db) as [[i doc]|] eqn:Hfind;
      intros [= <- <- <-]; [|done].
    apply list_find_Some in Hfind as (Hi & Hdoc & _). unfold id_is in Hdoc.
    rewrite !show_student_outcome. cbn [fst].
    rewrite (list_find_delete_other _ _ _ doc); [done..|].
    unfold id_is. rewrite Hdoc. congruence.
  - intros student r db' calls Hne.
    assert (Hother : ¬ id_is (VStr id') (jsonable_encoder student)).
    { unfold id_is. rewrite jsonable_encoder_id. congruence. }
    destruct (list_find (id_is (VStr (str_of_ObjectId (StudentModel.id student)))) db)
      as [[i doc]|] eqn:Hfind.
    + rewrite (create_student_taken _ _ _ _ Hfind). by intros [= <- <- <-].
    + apply list_find_None in Hfind.
      rewrite create_student_eval by done.
      rewrite !show_student_outcome. cbn [fst].
      by destruct (json_dumps_ok _); intros [= <- <- <-];
        rewrite list_find_snoc_other.
Qed.

(** *** Update, then read *)

(** X6.  What update returns is what getById returns right after it, for
    the same identifier, the collection unchanged by that read. *)
Theorem update_then_show (id : string) (student : UpdateStudentModel.t) (db db' : collection)
    doc' calls :
  update_student id student db = (Return doc', db', calls) →
  show_student id db' = (Return doc', db', [FindOne (VStr id)]).
Proof.
  rewrite update_student_eval.
  destruct (list_find (id_is (VStr id)) db) as [[i doc]|] eqn:Hfind; [|done].
  case_decide; intros [= <- <- <-]; rewrite show_student_eval.
  - rewrite (list_find_insert _ _ _ doc (_ ∪ doc) Hfind); [done|].
    apply list_find_Some in Hfind as (_ & Hdoc & _). unfold id_is in *.
    by rewrite lookup_union_r by apply assignments_no_id.
  - by rewrite Hfind.
Qed.

(** X7.  update is idempotent: the same patch for the same identifier a
    second time returns the same record, issues the same calls and leaves
    the collection as the first update left it. *)
Theorem update_idempotent (id : string) (student : UpdateStudentModel.t) (db db' : collection)
    doc' calls :
  update_student id student db = (Return doc', db', calls) →
  update_student id student db' = (Return doc', db', calls).
Proof.
  rewrite !update_student_eval.
  destruct (list_find (id_is (VStr id)) db) as [[i doc]|] eqn:Hfind; [|done].
  case_decide as Hsize; intros [= <- <- <-].
  - rewrite (list_find_insert _ _ _ doc (_ ∪ doc) Hfind).
    + by rewrite (assoc_L (∪)), (idemp_L (∪)), list_insert_insert_eq.
    + apply list_find_Some in Hfind as (_ & Hdoc & _). unfold id_is in *.
      by rewrite lookup_union_r by apply assignments_no_id.
  - by rewrite Hfind.
Qed.

(** *** Creation against the state of the collection *)

(** X8.  create never overwrites: when a stored document already has the
    string of the model's identifier as its key, create raises the
    duplicate-key error after its one insert call, the collection is left as
    it was, and getById still returns the document that was there.  The
    route behaves the same for a body that validates to such a model. *)
Theorem create_never_overwrites (student : StudentModel.t) (db : collection) i doc :
  list_find (id_is (VStr (str_of_ObjectId (StudentModel.id student)))) db = Some (i, doc) →
  create_student student db =
    (Raise DuplicateKeyError, db, [InsertOne (jsonable_encoder student)]) ∧
  (∀ b, StudentModel_parse_obj b = inr student →
        POST b db = (Raise DuplicateKeyError, db, [InsertOne (jsonable_encoder student)])) ∧
  show_student (str_of_ObjectId (StudentModel.id student)) db =
    (Return doc, db, [FindOne (VStr (str_of_ObjectId (StudentModel.id student)))]).
Proof.
  intros Hfind. split_and!.
  - by eapply create_student_taken.
  - intros b Hparse. unfold POST. rewrite Hparse. by eapply create_student_taken.
  - by rewrite show_student_eval, Hfind.
Qed.



(** The collection after [create_student], when the key is free. *)
Lemma create_student_appends (student : StudentModel.t) (db db' : collection) r calls :
  Forall (fun doc => ¬ id_is (VStr (str_of_ObjectId (StudentModel.id student))) doc) db →
  create_student student db = (r, db', calls) →
  db' = db ++ [jsonable_encoder student] ∧
  list_find (id_is (VStr (str_of_ObjectId (StudentModel.id student)))) db' =
    Some (length db, jsonable_encoder student).
Proof.
  intros Hfree. rewrite create_student_eval by done.
  assert (Hnone : list_find (id_is (VStr (str_of_ObjectId (StudentModel.id student)))) db = None)
    by (by apply list_find_None).
  assert (Hfound :
    list_find (id_is (VStr (str_of_ObjectId (StudentModel.id student))))
      (db ++ [jsonable_encoder student]) = Some (length db, jsonable_encoder student)).
  { rewrite list_find_app_r by done. cbn [list_find].
    by rewrite decide_True by apply jsonable_encoder_id. }
  by destruct (json_dumps_ok _); intros [= <- <- <-].
Qed.




(** X12.  create then delete is a round trip on the collection: when the
    key is free, delete with the string of the created Student's identifier
    right after create answers 204 and leaves the collection exactly as it
    was before the create. *)
Theorem create_then_delete (student : StudentModel.t) (db db' : collection) r calls :
  Forall (fun doc => ¬ id_is (VStr (str_of_ObjectId (StudentModel.id student))) doc) db →
  create_student student db = (r, db', calls) →
  let id := str_of_ObjectId (StudentModel.id student) in
  delete_student id db' =
    (Return {| status_code := 204; content := Empty |}, db, [DeleteOne (VStr id)]).
Proof.
  intros Hfree Hcreate id.
  destruct (create_student_appends _ _ _ _ _ Hfree Hcreate) as [-> Hfound].
  subst id. rewrite delete_student_eval, Hfound.
  by rewrite delete_middle, app_nil_r.
Qed.

(** *** Driver calls *)

(** X13.  No handler awaits more than two driver calls, and each awaits at
    least one: list, getById and delete exactly one; create one when the
    insert is refused and two otherwise; update one when the patch has
    nothing to set and two otherwise.  A body that fails validation reaches
    no handler: no call is made and the collection is left as it was. *)
Theorem driver_round_trips (db : collection) :
  (∀ r db' calls, list_students db = (r, db', calls) → length calls = 1) ∧
  (∀ id r db' calls, show_student id db = (r, db', calls) → length calls = 1) ∧
  (∀ id r db' calls, delete_student id db = (r, db', calls) → length calls = 1) ∧
  (∀ student r db' calls,
     create_student student db = (r, db', calls) →
     (r = Raise DuplicateKeyError ∧ length calls = 1) ∨
     (r ≠ Raise DuplicateKeyError ∧ length calls = 2)) ∧
  (∀ id student r db' calls,
     update_student id student db = (r, db', calls) →
     (not_None (UpdateStudentModel_dict student) = ∅ ∧ length calls = 1) ∨
     (not_None (UpdateStudentModel_dict student) ≠ ∅ ∧ length calls = 2)) ∧
  (∀ b errors r db' calls,
     StudentModel_parse_obj b = inl errors → POST b db = (r, db', calls) →
     r = Raise (RequestValidationError errors) ∧ db' = db ∧ calls = []) ∧
  (∀ id b errors r db' calls,
     UpdateStudentModel_parse_obj b = inl errors → PUT id b db = (r, db', calls) →
     r = Raise (RequestValidationError errors) ∧ db' = db ∧ calls = []).
Proof.
  split_and!.
  - by intros r db' calls [= <- <- <-].
  - intros id r db' calls. rewrite show_student_eval. by intros [= <- <- <-].
  - intros id r db' calls. rewrite delete_student_eval.
    by destruct (list_find _ db) as [[? ?]|]; intros [= <- <- <-].
  - intros student r db' calls.
    destruct (list_find (id_is (VStr (str_of_ObjectId (StudentModel.id student)))) db)
      as [[i doc]|] eqn:Hfind.
    + rewrite (create_student_taken _ _ _ _ Hfind). intros [= <- <- <-]. by left.
    + apply list_find_None in Hfind. rewrite create_student_eval by done.
      destruct (json_dumps_ok _); intros [= <- <- <-]; by right.
  - intros id student r db' calls. rewrite update_student_eval.
    destruct (decide (size (not_None (UpdateStudentModel_dict student)) >= 1)) as [Hsize|Hsize].
    + intros Heq. right. split; [by apply size_ge_1|].
      revert Heq. by destruct (list_find _ db) as [[? ?]|]; intros [= <- <- <-].
    + intros Heq. left. split.
      * destruct (decide (not_None (UpdateStudentModel_dict student) = ∅)) as [|Hne]; [done|].
        by apply size_ge_1 in Hne.
      * revert Heq. by destruct (list_find _ db) as [[? ?]|]; intros [= <- <- <-].
  - intros b errors r db' calls Herr. unfold POST. rewrite Herr. by intros [= <- <- <-].
  - intros id b errors r db' calls Herr. unfold PUT. rewrite Herr. by intros [= <- <- <-].
Qed.

(** *** Validation, continued *)



End Service.

(** ** Scenarios *)

Example str_of_ObjectId_oid_b : str_of_ObjectId oid_b = "0123456789abcdef01234567".
Proof. reflexivity. Qed.

(** Hexadecimal digits are read in either case. *)
Example ObjectId_of_str_upper_case : ObjectId_of_str "0123456789ABCDEF01234567" = Some oid_b.
Proof. reflexivity. Qed.

(** The violations of all fields are reported together. *)
Example StudentModel_parse_obj_errors :
  StudentModel_parse_obj keep_address oid_a
    {| body_id := Given "not-an-objectid"; body_name := Absent;
       body_email := Given "jdoe.example.com"; body_course := Null;
       body_gpa := Given four_point_one |}
  = inl [("_id", InvalidObjectId); ("name", Missing); ("email", InvalidEmail);
         ("course", NoneNotAllowed); ("gpa", NumberNotLe)].
Proof. reflexivity. Qed.

(** PUT on an identifier that is not stored: 404, after a write that matched
    nothing. *)
Example PUT_missing_id :
  PUT keep_address "645f1a2b3c4d5e6f708192a3" (gpa_only three)
    [jsonable_encoder (jane oid_b three)]
  = (Raise (HTTPException 404 "Student 645f1a2b3c4d5e6f708192a3 not found"),
     [jsonable_encoder (jane oid_b three)],
     [UpdateOne (VStr "645f1a2b3c4d5e6f708192a3") {[ "gpa" := VFloat three ]};
      FindOne (VStr "645f1a2b3c4d5e6f708192a3")]).
Proof. vm_compute. reflexivity. Qed.

(** delete, then getById on the same identifier: 204, then 404. *)
Example delete_then_show :
  let id := "0123456789abcdef01234567" in
  delete_student id [jsonable_encoder (jane oid_b three)]
    = (Return {| status_code := 204; content := Empty |}, [], [DeleteOne (VStr id)]) ∧
  show_student id []
    = (Raise (HTTPException 404 "Student 0123456789abcdef01234567 not found"), [],
       [FindOne (VStr id)]).
Proof. split; vm_compute; reflexivity. Qed.

(** Three students created one after the other are what list returns. *)
Example list_after_three_creations :
  let a := jane oid_a three in
  let b := jane oid_b four in
  let c := jane {| binary := [x00; x00; x00; x00; x00; x00; x00; x00; x00; x00; x00; x01] |}
             zero in
  ∃ r1 r2 r3 db1 db2 db3 calls1 calls2 calls3,
    create_student oid_a a [] = (Return r1, db1, calls1) ∧
    create_student oid_a b db1 = (Return r2, db2, calls2) ∧
    create_student oid_a c db2 = (Return r3, db3, calls3) ∧
    list_students db3
      = (Return [jsonable_encoder a; jsonable_encoder b; jsonable_encoder c], db3,
         [FindToList 1000]).
Proof. intros a b c. do 9 eexists. repeat split; vm_compute; reflexivity. Qed.

(** ** The theorems at the sample data *)



(** C8 at the failing input: the body carries the identifier
    0123456789abcdef01234567 while the generated one is
    645f1a2b3c4d5e6f708192a3; the document is stored and returned under the
    client's. *)
Lemma create_stores_client_id_witness :
  let b := jane_body (Given "0123456789abcdef01234567") three in
  let student := jane oid_b three in
  let created := jsonable_encoder student in
  (body_id b = Given "0123456789abcdef01234567" ∧
   StudentModel_parse_obj keep_address oid_a b = inr student ∧
   is_finite (StudentModel.gpa student) = true ∧
   Forall (fun doc => ¬ id_is (VStr (str_of_ObjectId (StudentModel.id student))) doc) []) ∧
  str_of_ObjectId oid_a = "645f1a2b3c4d5e6f708192a3" ∧
  created !! "_id" = Some (VStr "0123456789abcdef01234567") ∧
  POST keep_address oid_a b [] =
    (Return {| status_code := 201; content := Json (Some created) |}, [created],
     [InsertOne created; FindOne (VStr "0123456789abcdef01234567")]).
Proof.
  intros b student created.
  assert (H1 : body_id b = Given "0123456789abcdef01234567") by reflexivity.
  assert (H2 : StudentModel_parse_obj keep_address oid_a b = inr student) by reflexivity.
  assert (H3 : is_finite (StudentModel.gpa student) = true) by reflexivity.
  assert (H4 : Forall (fun doc => ¬ id_is (VStr (str_of_ObjectId (StudentModel.id student))) doc) [])
    by apply Forall_nil_2.
  split; [by repeat split|].
  destruct (create_stores_client_id keep_address oid_a b _ student [] H1 H2 H3 H4)
    as (_ & Hkey & HPOST).
  split; [reflexivity|]. split; [exact Hkey | exact HPOST].
Defined.


(** ** The further properties at the sample data *)

(** X1 at the first sample identifier. *)
Lemma PyObjectId_validate_str_witness :
  length (binary oid_a) = 12 ∧
  PyObjectId_validate "645f1a2b3c4d5e6f708192a3" = inr oid_a.
Proof.
  assert (Hlen : length (binary oid_a) = 12) by reflexivity.
  split; [exact Hlen|].
  destruct (PyObjectId_validate_str oid_a Hlen) as (_ & _ & Hvalidate & _).
  exact Hvalidate.
Defined.

(** X3 at the collection that holds Jane Doe: the keys stay in order
    whatever is created, and after her deletion. *)
Lemma handlers_keep_well_keyed_witness :
  let db := [jsonable_encoder (jane oid_b three)] in
  well_keyed db ∧
  (∀ student r db' calls,
     create_student oid_a student db = (r, db', calls) → well_keyed db') ∧
  (∀ id r db' calls, delete_student id db = (r, db', calls) → well_keyed db').
Proof.
  intros db.
  assert (Hdb : well_keyed db).
  { split; [apply Forall_singleton; by eexists | apply NoDup_singleton]. }
  split; [exact Hdb|].
  destruct (handlers_keep_well_keyed keep_address oid_a db Hdb)
    as (Hcreate & _ & Hdelete & _).
  split; [exact Hcreate | exact Hdelete].
Defined.

(** X4 at the collection that holds Jane Doe. *)
Lemma delete_then_not_found_witness :
  let id := "0123456789abcdef01234567" in
  let db := [jsonable_encoder (jane oid_b three)] in
  (well_keyed db ∧
   delete_student id db =
     (Return {| status_code := 204; content := Empty |}, [], [DeleteOne (VStr id)])) ∧
  show_student id [] =
    (Raise (HTTPException 404 "Student 0123456789abcdef01234567 not found"), [],
     [FindOne (VStr id)]).
Proof.
  intros id db.
  assert (Hdb : well_keyed db).
  { split; [apply Forall_singleton; by eexists | apply NoDup_singleton]. }
  assert (Hdelete : delete_student id db =
    (Return {| status_code := 204; content := Empty |}, [], [DeleteOne (VStr id)]))
    by (vm_compute; reflexivity).
  split; [by split|].
  destruct (delete_then_not_found id db [] _ _ Hdb Hdelete) as (Hshow & _).
  exact Hshow.
Defined.

(** X6 and X7 at the collection that holds Jane Doe: her gpa set to 4.0. *)
Lemma update_then_show_witness :
  let id := "0123456789abcdef01234567" in
  let doc := jsonable_encoder (jane oid_b three) in
  let doc' := <["gpa" := VFloat four]> doc in
  let student :=
    {| UpdateStudentModel.name := None; UpdateStudentModel.email := None;
       UpdateStudentModel.course := None; UpdateStudentModel.gpa := Some four |} in
  update_student id student [doc] =
    (Return doc', [doc'], [UpdateOne (VStr id) {[ "gpa" := VFloat four ]}; FindOne (VStr id)]) ∧
  show_student id [doc'] = (Return doc', [doc'], [FindOne (VStr id)]).
Proof.
  intros id doc doc' student.
  assert (Hupdate : update_student id student [doc] =
    (Return doc', [doc'], [UpdateOne (VStr id) {[ "gpa" := VFloat four ]}; FindOne (VStr id)]))
    by (vm_compute; reflexivity).
  split; [exact Hupdate|].
  exact (update_then_show id student [doc] [doc'] doc' _ Hupdate).
Defined.

Lemma update_idempotent_witness :
  let id := "0123456789abcdef01234567" in
  let doc := jsonable_encoder (jane oid_b three) in
  let doc' := <["gpa" := VFloat four]> doc in
  let student :=
    {| UpdateStudentModel.name := None; UpdateStudentModel.email := None;
       UpdateStudentModel.course := None; UpdateStudentModel.gpa := Some four |} in
  let calls := [UpdateOne (VStr id) {[ "gpa" := VFloat four ]}; FindOne (VStr id)] in
  update_student id student [doc] = (Return doc', [doc'], calls) ∧
  update_student id student [doc'] = (Return doc', [doc'], calls).
Proof.
  intros id doc doc' student calls.
  assert (Hupdate : update_student id student [doc] = (Return doc', [doc'], calls))
    by (vm_compute; reflexivity).
  split; [exact Hupdate|].
  exact (update_idempotent id student [doc] [doc'] doc' calls Hupdate).
Defined.

(** X8 at the collection that holds Jane Doe, her identifier sent again. *)
Lemma create_never_overwrites_witness :
  let student := jane oid_b four in
  let doc := jsonable_encoder (jane oid_b three) in
  list_find (id_is (VStr (str_of_ObjectId (StudentModel.id student)))) [doc] = Some (0, doc) ∧
  create_student oid_a student [doc] =
    (Raise DuplicateKeyError, [doc], [InsertOne (jsonable_encoder student)]) ∧
  show_student "0123456789abcdef01234567" [doc] =
    (Return doc, [doc], [FindOne (VStr "0123456789abcdef01234567")]).
Proof.
  intros student doc.
  assert (Hfind :
    list_find (id_is (VStr (str_of_ObjectId (StudentModel.id student)))) [doc] = Some (0, doc))
    by (vm_compute; reflexivity).
  split; [exact Hfind|].
  destruct (create_never_overwrites keep_address oid_a student [doc] 0 doc Hfind)
    as (Hcreate & _ & Hshow).
  split; [exact Hcreate | exact Hshow].
Defined.



Lemma create_then_delete_witness :
  let student := jane oid_a three in
  let created := jsonable_encoder student in
  let r := Return {| status_code := 201; content := Json (Some created) |} in
  let calls := [InsertOne created; FindOne (VStr "645f1a2b3c4d5e6f708192a3")] in
  (Forall (fun doc => ¬ id_is (VStr (str_of_ObjectId (StudentModel.id student))) doc) [] ∧
   create_student oid_a student [] = (r, [created], calls)) ∧
  delete_student "645f1a2b3c4d5e6f708192a3" [created] =
    (Return {| status_code := 204; content := Empty |}, [],
     [DeleteOne (VStr "645f1a2b3c4d5e6f708192a3")]).
Proof.
  intros student created r calls.
  assert (H1 : Forall (fun doc =>
    ¬ id_is (VStr (str_of_ObjectId (StudentModel.id student))) doc) []) by apply Forall_nil_2.
  assert (H2 : create_student oid_a student [] = (r, [created], calls))
    by (vm_compute; reflexivity).
  split; [by split|].
  exact (create_then_delete oid_a student [] [created] r calls H1 H2).
Defined.

